(** * The CDR client of go-hsdp-api: request building, execution and
    response classification (src/cdr/client.go).

    The development is a shallow embedding of [cdr/client.go].  Go values
    are rendered as follows.
    - [string] is [String.string], [[]byte] is [list byte], [int] and
      [int64] are [Z] (no arithmetic in this file can leave the 64-bit
      range: the only computed number is a slice length).
    - a nil-able pointer, map, func or interface value is an [option].
    - [http.Header] is a finite map from canonical keys to value lists.
    - a Go call that returns [(T, error)], or that may panic, returns a
      [Result T]. *)

From Stdlib Require Import ZArith Ascii String.
From Stdlib.Strings Require Import Byte.
From stdpp Require Import base option list gmap strings sorting.

Local Open Scope Z_scope.
Local Open Scope string_scope.
Local Open Scope list_scope.

(** ** Errors and results *)

(** Modelled from the spec: the sentinel errors [ErrCDRURLCannotBeEmpty] and
    [ErrNonHttp20xResponse] are declared in a file of package [cdr] that is
    not part of the sources at hand; client.go only names them.  The spec
    calls the second one [NonSuccessStatusError].  Every other Go [error]
    value (from net/url, from an option function, from the transport, from
    jsonformat or os) is an [ExternalError] carrying its message. *)
Inductive error : Type :=
| ErrCDRURLCannotBeEmpty
| ErrNonHttp20xResponse
| ExternalError (msg : string).

(** What a Go call can do: return a value, return an error, or panic. *)
Inductive Result (A : Type) : Type :=
| Ok (a : A)
| Err (e : error)
| Panic.
Arguments Ok {A} a.
Arguments Err {A} e.
Arguments Panic {A}.

(** ** The data of net/url and net/http that client.go touches *)

(** [url.URL]; [User] is kept as the already rendered userinfo. *)
Record URL : Type := mkURL {
  Scheme : string;
  Opaque : string;
  User : option string;
  Host : string;
  Path : string;
  RawPath : string;
  ForceQuery : bool;
  RawQuery : string;
  Fragment : string
}.

Definition set_Opaque (v : string) (x : URL) : URL :=
  mkURL (Scheme x) v (User x) (Host x) (Path x) (RawPath x)
        (ForceQuery x) (RawQuery x) (Fragment x).

Definition set_RawQuery (v : string) (x : URL) : URL :=
  mkURL (Scheme x) (Opaque x) (User x) (Host x) (Path x) (RawPath x)
        (ForceQuery x) v (Fragment x).

(** [validHeaderFieldByte] of net/textproto: the token characters of
    RFC 7230. *)
Definition validHeaderFieldByte (c : ascii) : bool :=
  let n := nat_of_ascii c in
  ((48 <=? n) && (n <=? 57))%nat || ((65 <=? n) && (n <=? 90))%nat
  || ((97 <=? n) && (n <=? 122))%nat
  || bool_decide (c ∈ ["!"; "#"; "$"; "%"; "&"; "'"; "*"; "+"; "-"; ".";
                        "^"; "_"; "`"; "|"; "~"]%char).

Definition is_lower (c : ascii) : bool :=
  let n := nat_of_ascii c in ((97 <=? n) && (n <=? 122))%nat.

Definition is_upper (c : ascii) : bool :=
  let n := nat_of_ascii c in ((65 <=? n) && (n <=? 90))%nat.

(** The second loop of [canonicalMIMEHeaderKey]: upper case at the start
    and after each dash, lower case elsewhere. *)
Fixpoint canonicalize (upper : bool) (s : string) : string :=
  match s with
  | EmptyString => EmptyString
  | String c rest =>
      let c' :=
        if upper && is_lower c then ascii_of_nat (nat_of_ascii c - 32)
        else if negb upper && is_upper c then ascii_of_nat (nat_of_ascii c + 32)
        else c in
      String c' (canonicalize (bool_decide (c' = "-"%char)) rest)
  end.

Fixpoint all_valid (s : string) : bool :=
  match s with
  | EmptyString => true
  | String c rest => validHeaderFieldByte c && all_valid rest
  end.

(** [textproto.CanonicalMIMEHeaderKey]: a key with a byte that is not a
    token character is returned unchanged. *)
Definition CanonicalMIMEHeaderKey (s : string) : string :=
  if all_valid s then canonicalize true s else s.

(** [http.Header.Set] on a non-nil map. *)
Definition Header_Set (key value : string) (h : gmap string (list string))
  : gmap string (list string) :=
  <[CanonicalMIMEHeaderKey key := [value]]> h.

(** [req.URL] is a pointer.  [NewCDRRequest] makes it point at its local
    copy [u] of the base URL; an option function may leave it there, make it
    point at another URL object, or set it to nil. *)
Inductive URLPtr : Type :=
| PtrLocal
| PtrOther (v : URL)
| PtrNil.

(** The fields of [http.Request] that client.go sets, and those an option
    function is likely to set.  [Header] is [None] for a nil map and [Body]
    is [None] for a nil [io.ReadCloser]; a body is the bytes it will yield. *)
Record Request : Type := mkRequest {
  Method : string;
  ReqURL : URLPtr;
  Proto : string;
  ProtoMajor : Z;
  ProtoMinor : Z;
  Header : option (gmap string (list string));
  Body : option (list byte);
  ContentLength : Z;
  ReqHost : string
}.

(** The two objects [NewCDRRequest] allocates: the local URL [u] and the
    request [req], which refers to [u] as long as [ReqURL req = PtrLocal]. *)
Record ReqState : Type := mkReqState {
  u : URL;
  req : Request
}.

(** Dereferencing [req.URL]. *)
Definition URL_of (st : ReqState) : option URL :=
  match ReqURL (req st) with
  | PtrLocal => Some (u st)
  | PtrOther v => Some v
  | PtrNil => None
  end.

(** A response body stream: the bytes not yet read and whether [Close] has
    been called on it. *)
Record BodyStream : Type := mkBody {
  unread : list byte;
  closed : bool
}.

(** [http.Response]. *)
Record HttpResponse : Type := mkHttpResponse {
  StatusCode : Z;
  RespHeader : gmap string (list string);
  RespBody : BodyStream
}.

(** [type Response struct { *http.Response }] *)
Record Response : Type := mkResponse {
  Response_ : HttpResponse
}.

(** [newResponse] *)
Definition newResponse (r : HttpResponse) : Response :=
  {| Response_ := r |}.

(** ** Response classification *)

(** [CheckResponse] *)
Definition CheckResponse (r : HttpResponse) : option error :=
  if bool_decide (StatusCode r ∈ [200; 201; 202; 204; 304]) then None
  else Some ErrNonHttp20xResponse.

(** ** The token provider *)

(** Modelled from the spec: package [iam] is not part of the sources at
    hand.  The spec (section 6) gives the boundary: [currentToken() ->
    string], which never fails, and [underlyingTransport()], an HTTP-capable
    transport.  [Token] is the credential [c.iamClient.Token()] returns in
    the present state of the identity client.  [HttpClient_Do] is
    [c.iamClient.HttpClient().Do]; net/http promises a non-nil response
    whenever the error is nil, which [RoundTrip] builds in. *)
Inductive RoundTrip : Type :=
| Sent (resp : HttpResponse)
| Failed (resp : option HttpResponse) (err : error).

Record iam_Client : Type := mk_iam_Client {
  Token : string;
  HttpClient_Do : ReqState -> RoundTrip
}.

(** A [*iam.Client] is an address; the heap gives the present state of the
    identity client at each address.  A [Client] keeps the address, so it
    sees every later change of that state. *)
Definition iam_ref : Type := nat.
Definition Heap : Type := iam_ref -> iam_Client.

(** ** Configuration and client *)

Definition libraryVersion : string := "0.27.0".
Definition userAgent : string := "go-hsdp-api/cdr/" +:+ libraryVersion.
Definition APIVersion : string := "1".

(** [Config] *)
Record Config : Type := mkConfig {
  Region : string;
  Environment : string;
  RootOrgID : string;
  CDRURL : string;
  FHIRStore : string;
  TimeZone : string;
  DebugLog : string
}.

(** Handles of objects that live outside this package: an open [*os.File]
    and the jsonformat marshaller and unmarshaller. *)
Inductive File : Type := file_handle (fd : nat).
Inductive Marshaller : Type := marshaller_handle (id : nat).
Inductive Unmarshaller : Type := unmarshaller_handle (id : nat).

(** The fields [newClient] gives the two STU3 services (their declarations
    are outside client.go); the back pointer [client] is left out. *)
Record STU3Service : Type := mkSTU3Service {
  timeZone : string;
  ma : option Marshaller;
  um : option Unmarshaller
}.

(** [Client].  [config] is held by value: the spec takes the configuration
    as immutable once the client exists. *)
Record Client : Type := mkClient {
  iamClient : iam_ref;
  config : Config;
  fhirStoreURL : option URL;
  UserAgent : string;
  TenantSTU3 : option STU3Service;
  OperationsSTU3 : option STU3Service;
  debugFile : option File
}.

Definition set_fhirStoreURL (v : option URL) (c : Client) : Client :=
  mkClient (iamClient c) (config c) v (UserAgent c) (TenantSTU3 c)
           (OperationsSTU3 c) (debugFile c).

Definition set_debugFile (v : option File) (c : Client) : Client :=
  mkClient (iamClient c) (config c) (fhirStoreURL c) (UserAgent c)
           (TenantSTU3 c) (OperationsSTU3 c) v.

Definition set_services (t o : option STU3Service) (c : Client) : Client :=
  mkClient (iamClient c) (config c) (fhirStoreURL c) (UserAgent c) t o
           (debugFile c).


(** [strings.HasSuffix] *)
Definition HasSuffix (s suffix : string) : bool :=
  let n := String.length s in
  let k := String.length suffix in
  (k <=? n)%nat && String.eqb (substring (n - k) k s) suffix.

Section Construction.

(** The library calls of [newClient], as Go pairs [(value, err)]:
    [url.Parse], [os.OpenFile] with the flags and mode of client.go,
    [jsonformat.NewMarshaller(false, "", "", STU3)] and
    [jsonformat.NewUnmarshaller(tz, STU3)]. *)
Variable url_Parse : string -> option URL * option error.
Variable os_OpenFile : string -> option File * option error.
Variable jsonformat_NewMarshaller : option Marshaller * option error.
Variable jsonformat_NewUnmarshaller : string -> option Unmarshaller * option error.

(** [Client.SetFHIRStoreURL]: the client after the call and the
    returned error. *)
Definition SetFHIRStoreURL (c : Client) (urlStr : string)
  : Client * option error :=
  if bool_decide (urlStr = "") then (c, Some ErrCDRURLCannotBeEmpty)
  else
    let urlStr := if negb (HasSuffix urlStr "/") then urlStr +:+ "/"
                  else urlStr in
    let '(parsed, err) := url_Parse urlStr in
    (set_fhirStoreURL parsed c, err).

(** [newClient] *)
Definition newClient (iamClient : iam_ref) (config : Config) : Result Client :=
  let c := mkClient iamClient config None userAgent None None None in
  let fhirStore :=
    if bool_decide (FHIRStore config = "") then CDRURL config +:+ "/store/fhir/"
    else FHIRStore config in
  match SetFHIRStoreURL c fhirStore with
  | (_, Some err) => Err err
  | (c, None) =>
      let c :=
        if negb (bool_decide (DebugLog config = "")) then
          match os_OpenFile (DebugLog config) with
          | (_, Some _) => set_debugFile None c
          | (f, None) => set_debugFile f c
          end
        else c in
      match jsonformat_NewMarshaller with
      | (_, Some err) => Err err
      | (ma, None) =>
          match jsonformat_NewUnmarshaller (TimeZone config) with
          | (_, Some err) => Err err
          | (um, None) =>
              let svc := mkSTU3Service (TimeZone config) ma um in
              Ok (set_services (Some svc) (Some svc) c)
          end
      end
  end.

(** [NewClient] *)
Definition NewClient (iamClient : iam_ref) (config : Config) : Result Client :=
  newClient iamClient config.

End Construction.


(** ** Building a request *)

(** [OptionFunc]: a Go func from a request pointer to an error.  The
    function works on the request in place, and through [req.URL] on the URL
    it points at; it returns the objects as it leaves them and its error. *)
Definition OptionFunc : Type := ReqState -> ReqState * option error.

(** The loop over [options].  A nil entry is [None].  Next to the result
    the loop reports which positions of the slice it called, in order
    ([i] is the position of the head of [options]). *)
Fixpoint applyOptions (i : nat) (options : list (option OptionFunc))
    (st : ReqState) : list nat * Result ReqState :=
  match options with
  | [] => ([], Ok st)
  | None :: rest => applyOptions (S i) rest st
  | Some fn :: rest =>
      match fn st with
      | (_, Some err) => ([i], Err err)
      | (st', None) =>
          let '(calls, r) := applyOptions (S i) rest st' in
          (i :: calls, r)
      end
  end.

Definition is_mutating (method : string) : bool :=
  String.eqb method "POST" || String.eqb method "PUT"
  || String.eqb method "PATCH".

Definition set_Body (b : option (list byte)) (len : Z) (r : Request) : Request :=
  mkRequest (Method r) (ReqURL r) (Proto r) (ProtoMajor r) (ProtoMinor r)
            (Header r) b len (ReqHost r).

Definition set_Header (h : option (gmap string (list string))) (r : Request)
  : Request :=
  mkRequest (Method r) (ReqURL r) (Proto r) (ProtoMajor r) (ProtoMinor r)
            h (Body r) (ContentLength r) (ReqHost r).

Definition set_ReqURL (p : URLPtr) (r : Request) : Request :=
  mkRequest (Method r) p (Proto r) (ProtoMajor r) (ProtoMinor r)
            (Header r) (Body r) (ContentLength r) (ReqHost r).

(** Lines 136-148: the local URL and the request before any option runs. *)
Definition initial (base : URL) (rootOrgID method path : string) : ReqState :=
  let u := set_Opaque (Path base +:+ rootOrgID +:+ "/" +:+ path) base in
  {| u := u;
     req := mkRequest method PtrLocal "HTTP/1.1" 1 1 (Some ∅) None 0 (Host u) |}.

(** Lines 160-166: body, content length and the query of the local [u]. *)
Definition attachBody (method : string) (bodyBytes : list byte) (st : ReqState)
  : ReqState :=
  if is_mutating method then
    {| u := set_RawQuery "" (u st);
       req := set_Body (Some bodyBytes) (Z.of_nat (length bodyBytes)) (req st) |}
  else st.

(** Lines 168-175: the four [Header.Set] calls; writing to a nil map
    panics. *)
Definition setHeaders (c : Client) (token : string) (st : ReqState)
  : Result ReqState :=
  match Header (req st) with
  | None => Panic
  | Some h =>
      let h := Header_Set "Accept" "*/*" h in
      let h := Header_Set "Authorization" ("Bearer " +:+ token) h in
      let h := Header_Set "API-Version" APIVersion h in
      let h := if negb (bool_decide (UserAgent c = ""))
               then Header_Set "User-Agent" (UserAgent c) h else h in
      Ok {| u := u st; req := set_Header (Some h) (req st) |}
  end.

(** What a call of [NewCDRRequest] did: the option functions it called and
    what it returned ([Ok] is [(req, nil)], [Err e] is [(nil, e)]). *)
Record Built : Type := mkBuilt {
  called : list nat;
  returned : Result ReqState
}.

(** [Client.NewCDRRequest].  Dereferencing a nil [c.fhirStoreURL]
    panics. *)
Definition NewCDRRequest (c : Client) (heap : Heap) (method path : string)
    (bodyBytes : list byte) (options : list (option OptionFunc)) : Built :=
  match fhirStoreURL c with
  | None => mkBuilt [] Panic
  | Some base =>
      match applyOptions 0 options
              (initial base (RootOrgID (config c)) method path) with
      | (calls, Ok st) =>
          mkBuilt calls
            (setHeaders c (Token (heap (iamClient c)))
                        (attachBody method bodyBytes st))
      | (calls, Err e) => mkBuilt calls (Err e)
      | (calls, Panic) => mkBuilt calls Panic
      end
  end.

(** ** Executing a request *)

Definition LF : string := String (ascii_of_nat 10) EmptyString.

Section Execution.

(** The destination [v] of [Do] is nil, a value with the [io.Writer]
    capability, or any other value, which is decoded into. *)
Variables Writer Target : Type.

Inductive Dest : Type :=
| DestNil
| DestWriter (w : Writer)
| DestValue (t : Target).

(** The library calls of [Do].  [httputil.DumpRequest] and
    [httputil.DumpResponse] (with [body = true]) give the dumped text,
    empty when they fail; they buffer the body and put a reader over the
    same bytes back in its place, so the message is left as it was.
    [io.Copy] and [Decoder.Decode] give the destination afterwards, the
    bytes of the body they left unread, and their error. *)
Variable DumpRequest : ReqState -> string.
Variable DumpResponse : HttpResponse -> string.
Variable io_Copy : Writer -> list byte -> Writer * list byte * option error.
Variable json_Decode : Target -> list byte -> Target * list byte * option error.

(** What a call of [Do] did: the returned pair, the destination
    afterwards and the strings written to the debug file, in order. *)
Record Done : Type := mkDone {
  response : option Response;
  err : option error;
  dest : Dest;
  written : list string
}.

Definition set_RespBody (b : BodyStream) (r : HttpResponse) : HttpResponse :=
  mkHttpResponse (StatusCode r) (RespHeader r) b.

(** [Client.Do] *)
Definition Do (c : Client) (heap : Heap) (r : ReqState) (v : Dest) : Done :=
  let log1 :=
    match debugFile c with
    | Some _ =>
        ["[go-hsdp-api] --- Request start ---" +:+ LF +:+ DumpRequest r
         +:+ LF +:+ "[go-hsdp-api] Request end ---" +:+ LF]
    | None => []
    end in
  let sent := HttpClient_Do (heap (iamClient c)) r in
  let received :=
    match sent with
    | Sent resp => Some resp
    | Failed resp _ => resp
    end in
  let log2 :=
    match debugFile c, received with
    | Some _, Some resp =>
        ["[go-hsdp-api] --- Response start ---" +:+ LF +:+ DumpResponse resp
         +:+ LF +:+ "[go-hsdp-api] --- Response end ---" +:+ LF]
    | _, _ => []
    end in
  match sent with
  | Failed _ e => mkDone None (Some e) v (log1 ++ log2)
  | Sent resp =>
      match CheckResponse resp with
      | Some e => mkDone (Some (newResponse resp)) (Some e) v (log1 ++ log2)
      | None =>
          match v with
          | DestNil => mkDone (Some (newResponse resp)) None v (log1 ++ log2)
          | DestWriter w =>
              let '(w', rest, e) := io_Copy w (unread (RespBody resp)) in
              mkDone (Some (newResponse (set_RespBody (mkBody rest true) resp)))
                     e (DestWriter w') (log1 ++ log2)
          | DestValue t =>
              let '(t', rest, e) := json_Decode t (unread (RespBody resp)) in
              mkDone (Some (newResponse (set_RespBody (mkBody rest true) resp)))
                     e (DestValue t') (log1 ++ log2)
          end
      end
  end.

End Execution.

Arguments DestNil {Writer Target}.
Arguments DestWriter {Writer Target} w.
Arguments DestValue {Writer Target} t.
Arguments response {Writer Target} d.
Arguments err {Writer Target} d.
Arguments dest {Writer Target} d.
Arguments written {Writer Target} d.

(** ** The request line *)

(** [strings.HasPrefix] *)
Definition HasPrefix (s prefix : string) : bool := String.prefix prefix s.

(** [URL.RequestURI], what net/http writes in the request line, for a URL
    whose [Opaque] is set (the other branch escapes [Path] and is not
    reached by a request of this client, whose opaque part holds a slash). *)
Definition RequestURI (x : URL) : option string :=
  if bool_decide (Opaque x = "") then None
  else
    let result := if HasPrefix (Opaque x) "//"
                  then Scheme x +:+ ":" +:+ Opaque x else Opaque x in
    Some (if ForceQuery x || negb (bool_decide (RawQuery x = ""))
          then result +:+ "?" +:+ RawQuery x else result).

(** The absolute URL a built request addresses: net/http connects to
    [URL.Host] by [URL.Scheme] and asks for [URL.RequestURI()]. *)
Definition target (st : ReqState) : option string :=
  x ← URL_of st;
  uri ← RequestURI x;
  Some (Scheme x +:+ "://" +:+ Host x +:+ uri).

(** ** Reading a built request *)

(** The values stored under a header of the built request. *)
Definition header_values (key : string) (st : ReqState) : option (list string) :=
  h ← Header (req st);
  h !! CanonicalMIMEHeaderKey key.

(** An option function that leaves [req.URL] and the URL object alone. *)
Definition keeps_URL (o : option OptionFunc) : Prop :=
  ∀ fn st st', o = Some fn → fn st = (st', None) →
    u st' = u st ∧ ReqURL (req st') = ReqURL (req st).

(** An option function that leaves [req.Body] and [req.ContentLength]
    alone. *)
Definition keeps_Body (o : option OptionFunc) : Prop :=
  ∀ fn st st', o = Some fn → fn st = (st', None) →
    Body (req st') = Body (req st)
    ∧ ContentLength (req st') = ContentLength (req st).

(** ** Sample data *)

(** The URL object [url.Parse] gives for
    ["https://example.org/store/fhir/"]. *)
Definition example_base : URL :=
  mkURL "https" "" None "example.org" "/store/fhir/" "" false "" "".

Definition example_config : Config :=
  mkConfig "" "" "org1" "https://example.org" "" "" "".

Definition example_client : Client :=
  mkClient 0%nat example_config (Some example_base) userAgent None None None.

(** A response with the given status code and body. *)
Definition example_response (code : Z) (body : string) : HttpResponse :=
  mkHttpResponse code ∅ (mkBody (list_byte_of_string body) false).

(** An identity client holding [token] whose transport answers every
    request with [resp]. *)
Definition example_iam (token : string) (resp : HttpResponse) : iam_Client :=
  mk_iam_Client token (fun _ => Sent resp).

Definition example_heap (token : string) : Heap :=
  fun _ => example_iam token (example_response 404 "{}").

(** [func(r) error { r.URL.RawQuery = q; return nil }], written with a nil
    check. *)
Definition withQuery (q : string) : OptionFunc :=
  fun st =>
    match ReqURL (req st) with
    | PtrLocal => (mkReqState (set_RawQuery q (u st)) (req st), None)
    | PtrOther v =>
        (mkReqState (u st) (set_ReqURL (PtrOther (set_RawQuery q v)) (req st)),
         None)
    | PtrNil => (st, Some (ExternalError "no URL"))
    end.


(** [func(r) error { return e }] *)
Definition failing (e : error) : OptionFunc :=
  fun st => (st, Some e).

(** [func(r) error { r.Header = make(http.Header); return nil }] *)
Definition withoutHeaders : OptionFunc :=
  fun st => (mkReqState (u st) (set_Header (Some ∅) (req st)), None).

(** [func(r) error { r.Header.Set(k, v); return nil }], written with a nil
    check. *)
Definition withHeader (k v : string) : OptionFunc :=
  fun st =>
    match Header (req st) with
    | Some h => (mkReqState (u st) (set_Header (Some (Header_Set k v h)) (req st)),
                 None)
    | None => (st, Some (ExternalError "no header map"))
    end.


(** ** The base URL as text *)

Section Rendering.

(** [URL.String] of net/url. *)
Variable URL_String : URL -> string.

(** [Client.GetFHIRStoreURL] *)
Definition GetFHIRStoreURL (c : Client) : string :=
  match fhirStoreURL c with
  | None => ""
  | Some x => URL_String x
  end.

End Rendering.


(** ** The application resources of package stl (src/unnamed/part_000) *)

(** [AppResource] *)
Record AppResource : Type := mkAppResource {
  ID : Z;
  DeviceID : Z;
  Name : string;
  Content : string
}.

(** [CreateApplicationResourceInput] *)
Record CreateApplicationResourceInput : Type := mkCreateInput {
  create_DeviceId : Z;
  create_SerialNumber : string;
  create_GroupId : string;
  create_Name : string;
  create_Content : string;
  create_IsLocked : bool
}.

(** [DeleteApplicationResourceInput] *)
Record DeleteApplicationResourceInput : Type := mkDeleteInput {
  delete_ID : Z;
  delete_Name : string;
  delete_SerialNumber : string;
  delete_DeviceID : Z;
  delete_GroupID : string
}.

(** The values the four functions put in the variables map.
    [graphql.Int] is a 32-bit integer and [graphql.String] a string. *)
Inductive GqlValue : Type :=
| gql_Int (v : Z)
| gql_String (s : string)
| gql_CreateInput (i : CreateApplicationResourceInput)
| gql_DeleteInput (i : DeleteApplicationResourceInput).

(** The Go conversion of an [int64] to a 32-bit signed integer. *)
Definition int32 (z : Z) : Z := (z + 2 ^ 31) mod 2 ^ 32 - 2 ^ 31.

(** One element of [Resources.Edges]. *)
Record Edge : Type := mkEdge {
  Node : AppResource
}.

(** The anonymous struct of [CreateAppResource]. *)
Record CreatePayload : Type := mkCreatePayload {
  created_Success : string;
  created_Message : string;
  created_StatusCode : Z;
  created_RequestID : string;
  ApplicationResource : AppResource
}.

(** The anonymous struct of [DeleteAppResource]. *)
Record DeletePayload : Type := mkDeletePayload {
  deleted_Success : string;
  deleted_Message : string;
  deleted_StatusCode : Z;
  deleted_RequestID : string
}.

Section AppsService.

(** [a.client.gql.Query] at the four query structs: from the variables map
    to the struct as the call leaves it and the error it returns (the
    context argument is part of the call). *)
Variable Query_applicationResource
  : gmap string GqlValue -> AppResource * option error.
Variable Query_applicationResources
  : gmap string GqlValue -> list Edge * option error.
Variable Query_createApplicationResource
  : gmap string GqlValue -> CreatePayload * option error.
Variable Query_deleteApplicationResource
  : gmap string GqlValue -> DeletePayload * option error.

(** [GetAppResourceByDeviceIDAndName] *)
Definition GetAppResourceByDeviceIDAndName (deviceID : Z) (name : string)
  : option AppResource * option error :=
  match Query_applicationResource
          (<["id" := gql_Int (int32 deviceID)]>
             (<["name" := gql_String name]> ∅)) with
  | (_, Some err) => (None, Some err)
  | (app, None) => (Some app, None)
  end.

(** [GetAppResourcesBySerial]; the loop appends the node of each edge to
    an empty, non-nil slice. *)
Definition GetAppResourcesBySerial (serial : string)
  : option (list AppResource) * option error :=
  match Query_applicationResources (<["serial" := gql_String serial]> ∅) with
  | (_, Some err) => (None, Some err)
  | (edges, None) =>
      (Some (fold_left (λ appResources a, appResources ++ [Node a]) edges []),
       None)
  end.

(** [CreateAppResource] *)
Definition CreateAppResource (input : CreateApplicationResourceInput)
  : option AppResource * option error :=
  match Query_createApplicationResource
          (<["input" := gql_CreateInput input]> ∅) with
  | (_, Some err) => (None, Some err)
  | (mutation, None) => (Some (ApplicationResource mutation), None)
  end.

(** [DeleteAppResource] *)
Definition DeleteAppResource (input : DeleteApplicationResourceInput)
  : bool * option error :=
  match Query_deleteApplicationResource
          (<["input" := gql_DeleteInput input]> ∅) with
  | (_, Some err) => (false, Some err)
  | (_, None) => (true, None)
  end.

End AppsService.

(** A stand-in for [url.Parse] that reads its argument as a path. *)
Definition path_only_Parse (s : string) : option URL * option error :=
  (Some (mkURL "" "" None "" s "" false "" ""), None).

(** A stand-in for [url.Parse] that rejects every argument. *)
Definition rejecting_Parse (s : string) : option URL * option error :=
  (None, Some (ExternalError "parse error")).


(** * Properties *)

(** ** Classification *)

Lemma CheckResponse_success (r : HttpResponse) :
  StatusCode r ∈ [200; 201; 202; 204; 304] → CheckResponse r = None.
Proof.
  intros Hin. unfold CheckResponse. by rewrite bool_decide_eq_true_2.
Qed.

Lemma CheckResponse_failure (r : HttpResponse) :
  StatusCode r ∉ [200; 201; 202; 204; 304] →
  CheckResponse r = Some ErrNonHttp20xResponse.
Proof.
  intros Hin. unfold CheckResponse. by rewrite bool_decide_eq_false_2.
Qed.


(** C1.  A response whose status code is one of 200, 201, 202, 204 and 304
    classifies as success, and a response with any other status code (so
    every other code from 100 to 599) classifies as
    [ErrNonHttp20xResponse], whatever its headers and its body are. *)
Theorem CheckResponse_by_status_code
    (code : Z) (hdr : gmap string (list string)) (body : BodyStream) :
  (code ∈ [200; 201; 202; 204; 304] →
     CheckResponse (mkHttpResponse code hdr body) = None)
  ∧ (code ∉ [200; 201; 202; 204; 304] →
     CheckResponse (mkHttpResponse code hdr body) = Some ErrNonHttp20xResponse).
Proof.
  split; intros Hcode.
  - by apply CheckResponse_success.
  - by apply CheckResponse_failure.
Qed.

Lemma CheckResponse_by_status_code_witness :
  CheckResponse (example_response 204 "") = None
  ∧ CheckResponse (example_response 404 "{}") = Some ErrNonHttp20xResponse.
Proof.
  split.
  - apply (proj1 (CheckResponse_by_status_code 204 ∅ _)).
    apply (bool_decide_unpack _). vm_compute. exact I.
  - apply (proj2 (CheckResponse_by_status_code 404 ∅ _)).
    apply (bool_decide_unpack _). vm_compute. exact I.
Defined.

(** ** The option loop *)


(** Running a prefix that succeeds and then the rest is running the whole
    slice. *)
Lemma applyOptions_app (pre rest : list (option OptionFunc)) :
  ∀ i st calls st',
    applyOptions i pre st = (calls, Ok st') →
    applyOptions i (pre ++ rest) st =
      (calls ++ (applyOptions (i + length pre) rest st').1,
       (applyOptions (i + length pre) rest st').2).
Proof.
  induction pre as [|[fn|] pre IH]; intros i st calls st' Hpre; simpl in *.
  - injection Hpre as <- <-. rewrite Nat.add_0_r.
    by destruct (applyOptions i rest st).
  - destruct (fn st) as [st1 [e|]]; [done|].
    destruct (applyOptions (S i) pre st1) as [calls1 r1] eqn:Hrun.
    injection Hpre as <- ->.
    rewrite (IH _ _ _ _ Hrun). simpl.
    by rewrite Nat.add_succ_r.
  - rewrite (IH _ _ _ _ Hpre). by rewrite Nat.add_succ_r.
Qed.

(** Every position the loop reports lies in the slice and holds a non-nil
    function. *)
Lemma applyOptions_called_not_nil (options : list (option OptionFunc)) :
  ∀ i st k, k ∈ (applyOptions i options st).1 →
    (i ≤ k)%nat ∧ ∃ fn, options !! (k - i)%nat = Some (Some fn).
Proof.
  induction options as [|[fn|] rest IH]; intros i st k Hk; simpl in *.
  - by apply elem_of_nil in Hk.
  - destruct (fn st) as [st' [e|]]; simpl in *.
    + apply list_elem_of_singleton in Hk as ->.
      split; [lia|]. exists fn. by rewrite Nat.sub_diag.
    + destruct (applyOptions (S i) rest st') as [calls r] eqn:Hrun.
      simpl in Hk. apply elem_of_cons in Hk as [->|Hk].
      * split; [lia|]. exists fn. by rewrite Nat.sub_diag.
      * specialize (IH (S i) st' k). rewrite Hrun in IH.
        destruct (IH Hk) as [Hle [fn' Hfn']].
        split; [lia|]. exists fn'.
        by replace (k - i)%nat with (S (k - S i)) by lia.
  - destruct (IH (S i) st k Hk) as [Hle [fn' Hfn']].
    split; [lia|]. exists fn'.
    by replace (k - i)%nat with (S (k - S i)) by lia.
Qed.



(** A property of the two objects that every option function keeps holds
    after the loop. *)
Lemma applyOptions_preserves (P : ReqState → Prop)
    (options : list (option OptionFunc)) :
  Forall (λ o, ∀ fn st st', o = Some fn → fn st = (st', None) → P st → P st')
         options →
  ∀ i st calls st',
    applyOptions i options st = (calls, Ok st') → P st → P st'.
Proof.
  induction 1 as [|o rest Ho _ IH]; intros i st calls st' Hrun HP; simpl in *.
  - by injection Hrun as _ <-.
  - destruct o as [fn|]; [|by eapply IH].
    destruct (fn st) as [st1 [e|]] eqn:Hfn; [done|].
    destruct (applyOptions (S i) rest st1) as [calls1 r1] eqn:Hrest.
    injection Hrun as _ ->.
    eapply IH; [done|]. by eapply Ho.
Qed.

(** The loop fails only where an option function failed: the options
    before it ran to their end and it returned the error. *)
Lemma applyOptions_Err_inv (options : list (option OptionFunc)) :
  ∀ i st calls e,
    applyOptions i options st = (calls, Err e) →
    ∃ pre fn post calls' st1 st2,
      options = pre ++ Some fn :: post
      ∧ applyOptions i pre st = (calls', Ok st1)
      ∧ fn st1 = (st2, Some e).
Proof.
  induction options as [|[fn|] rest IH]; intros i st calls e Hrun; simpl in *.
  - done.
  - destruct (fn st) as [st' [e'|]] eqn:Hfn.
    + injection Hrun as _ ->. by exists [], fn, rest, [], st, st'.
    + destruct (applyOptions (S i) rest st') as [calls1 r1] eqn:Hrest.
      injection Hrun as _ ->.
      destruct (IH _ _ _ _ Hrest)
        as (pre & fn' & post & calls' & st1 & st2 & -> & Hpre & Hfn').
      exists (Some fn :: pre), fn', post, (i :: calls'), st1, st2.
      simpl. by rewrite Hfn, Hpre.
  - destruct (IH _ _ _ _ Hrun)
      as (pre & fn' & post & calls' & st1 & st2 & -> & Hpre & Hfn').
    by exists (None :: pre), fn', post, calls', st1, st2.
Qed.

(** ** The header stage *)

Lemma canonical_Accept : CanonicalMIMEHeaderKey "Accept" = "Accept".
Proof. reflexivity. Qed.

Lemma canonical_Authorization :
  CanonicalMIMEHeaderKey "Authorization" = "Authorization".
Proof. reflexivity. Qed.

Lemma canonical_API_Version : CanonicalMIMEHeaderKey "API-Version" = "Api-Version".
Proof. reflexivity. Qed.

Lemma canonical_User_Agent : CanonicalMIMEHeaderKey "User-Agent" = "User-Agent".
Proof. reflexivity. Qed.

(** [setHeaders] touches nothing but the header map. *)
Lemma setHeaders_frame (c : Client) (token : string) (st st' : ReqState) :
  setHeaders c token st = Ok st' →
  u st' = u st
  ∧ ReqURL (req st') = ReqURL (req st)
  ∧ Body (req st') = Body (req st)
  ∧ ContentLength (req st') = ContentLength (req st).
Proof.
  unfold setHeaders. destruct (Header (req st)); [|done].
  by intros [= <-].
Qed.

Ltac canonical_keys :=
  unfold header_values, Header_Set; simpl;
  rewrite ?canonical_Accept, ?canonical_Authorization,
          ?canonical_API_Version, ?canonical_User_Agent.

(** The three headers [setHeaders] always writes. *)
Lemma setHeaders_fixed (c : Client) (token : string) (st st' : ReqState) :
  setHeaders c token st = Ok st' →
  header_values "Accept" st' = Some ["*/*"]
  ∧ header_values "Authorization" st' = Some ["Bearer " +:+ token]
  ∧ header_values "API-Version" st' = Some [APIVersion].
Proof.
  unfold setHeaders. destruct (Header (req st)) as [h|]; [|done].
  intros [= <-]. canonical_keys.
  case_bool_decide; simpl; canonical_keys; by simplify_map_eq.
Qed.

(** The header written only for a client with a user agent. *)
Lemma setHeaders_User_Agent (c : Client) (token : string) (st st' : ReqState) :
  setHeaders c token st = Ok st' →
  UserAgent c ≠ "" →
  header_values "User-Agent" st' = Some [UserAgent c].
Proof.
  unfold setHeaders. destruct (Header (req st)) as [h|]; [|done].
  intros [= <-] Hua. canonical_keys.
  rewrite bool_decide_eq_false_2 by done. simpl. canonical_keys.
  by simplify_map_eq.
Qed.

(** With an empty [UserAgent] the entry is whatever the options left. *)
Lemma setHeaders_no_User_Agent (c : Client) (token : string) (st st' : ReqState) :
  setHeaders c token st = Ok st' →
  UserAgent c = "" →
  header_values "User-Agent" st' = header_values "User-Agent" st.
Proof.
  unfold setHeaders, header_values.
  destruct (Header (req st)) as [h|]; [|done].
  intros [= <-] Hua. canonical_keys.
  rewrite bool_decide_eq_true_2 by done. simpl. canonical_keys.
  by simplify_map_eq.
Qed.

(** ** What [NewCDRRequest] returns *)

(** A successful call ran the option loop, then the body stage, then the
    header stage. *)
Lemma NewCDRRequest_Ok (c : Client) (heap : Heap) (method path : string)
    (bodyBytes : list byte) (options : list (option OptionFunc)) (st : ReqState) :
  returned (NewCDRRequest c heap method path bodyBytes options) = Ok st →
  ∃ base calls st0,
    fhirStoreURL c = Some base
    ∧ applyOptions 0 options (initial base (RootOrgID (config c)) method path)
      = (calls, Ok st0)
    ∧ setHeaders c (Token (heap (iamClient c))) (attachBody method bodyBytes st0)
      = Ok st.
Proof.
  unfold NewCDRRequest. destruct (fhirStoreURL c) as [base|]; [|done].
  destruct (applyOptions 0 options _) as [calls [st0|e|]] eqn:Hrun; [|done..].
  simpl. intros Hset. by exists base, calls, st0.
Qed.

(** Options that leave the URL alone hand the local URL of line 138 to the
    later stages, still referred to by the request. *)
Lemma applyOptions_keeps_URL (options : list (option OptionFunc))
    (i : nat) (st st' : ReqState) (calls : list nat) :
  Forall keeps_URL options →
  applyOptions i options st = (calls, Ok st') →
  u st' = u st ∧ ReqURL (req st') = ReqURL (req st).
Proof.
  intros Hkeep Hrun.
  apply (applyOptions_preserves
           (λ s, u s = u st ∧ ReqURL (req s) = ReqURL (req st))
           options) with (i := i) (st := st) (calls := calls); [|done..].
  eapply Forall_impl; [exact Hkeep|].
  intros o Ho fn s s' -> Hfn [Hu Hptr].
  destruct (Ho fn s s' eq_refl Hfn) as [Hu' Hptr']. split; congruence.
Qed.

Lemma applyOptions_keeps_Body (options : list (option OptionFunc))
    (i : nat) (st st' : ReqState) (calls : list nat) :
  Forall keeps_Body options →
  applyOptions i options st = (calls, Ok st') →
  Body (req st') = Body (req st)
  ∧ ContentLength (req st') = ContentLength (req st).
Proof.
  intros Hkeep Hrun.
  apply (applyOptions_preserves
           (λ s, Body (req s) = Body (req st)
                 ∧ ContentLength (req s) = ContentLength (req st))
           options) with (i := i) (st := st) (calls := calls); [|done..].
  eapply Forall_impl; [exact Hkeep|].
  intros o Ho fn s s' -> Hfn [Hb Hlen].
  destruct (Ho fn s s' eq_refl Hfn) as [Hb' Hlen']. split; congruence.
Qed.

Lemma withHeader_keeps_URL (k v : string) : keeps_URL (Some (withHeader k v)).
Proof.
  intros fn st st' [= <-]. unfold withHeader.
  destruct (Header (req st)); [|done]. by intros [= <-].
Qed.

Lemma withHeader_keeps_Body (k v : string) : keeps_Body (Some (withHeader k v)).
Proof.
  intros fn st st' [= <-]. unfold withHeader.
  destruct (Header (req st)); [|done]. by intros [= <-].
Qed.

Lemma nil_keeps_URL : keeps_URL None.
Proof. by intros fn st st' [=]. Qed.

Lemma nil_keeps_Body : keeps_Body None.
Proof. by intros fn st st' [=]. Qed.

(** ** The URL of a built request *)

(** C3.  [NewCDRRequest] gives the request a copy of the base URL whose
    opaque part is the base path, the root organization, a slash and the
    relative path, joined as they are (no escaping is applied to the path);
    the request still carries that URL when it is returned, for every option
    list that leaves the URL alone.  For the base URL
    https://example.org/store/fhir/, root organization org1 and path
    Patient/123 the GET request addresses
    https://example.org/store/fhir/org1/Patient/123, and for any path [p]
    it addresses https://example.org/store/fhir/org1/ followed by [p] as it
    is. *)
Theorem NewCDRRequest_opaque_url :
  (∀ (c : Client) (heap : Heap) (method path : string) (bodyBytes : list byte)
     (options : list (option OptionFunc)) (base : URL) (st : ReqState),
     fhirStoreURL c = Some base →
     Forall keeps_URL options →
     returned (NewCDRRequest c heap method path bodyBytes options) = Ok st →
     URL_of st
     = Some (set_Opaque (Path base +:+ RootOrgID (config c) +:+ "/" +:+ path)
               (if is_mutating method then set_RawQuery "" base else base)))
  ∧ (∀ (heap : Heap) (bodyBytes : list byte),
       ∃ st, returned (NewCDRRequest example_client heap "GET" "Patient/123"
                         bodyBytes []) = Ok st
             ∧ (Opaque <$> URL_of st) = Some "/store/fhir/org1/Patient/123"
             ∧ target st
               = Some "https://example.org/store/fhir/org1/Patient/123")
  ∧ (∀ (heap : Heap) (bodyBytes : list byte) (path : string),
       ∃ st, returned (NewCDRRequest example_client heap "GET" path
                         bodyBytes []) = Ok st
             ∧ target st
               = Some ("https://example.org/store/fhir/org1/" +:+ path)).
Proof.
  split.
  - intros c heap method path bodyBytes options base st Hbase Hkeep Hret.
    apply NewCDRRequest_Ok in Hret as (base' & calls & st0 & Hbase' & Hrun & Hset).
    assert (base' = base) as -> by congruence.
    destruct (applyOptions_keeps_URL _ _ _ _ _ Hkeep Hrun) as [Hu Hptr].
    destruct (setHeaders_frame _ _ _ _ Hset) as (Hu' & Hptr' & _).
    unfold URL_of. rewrite Hptr'. unfold attachBody in *.
    destruct (is_mutating method); simpl in *.
    + rewrite Hptr. simpl. by rewrite Hu', Hu.
    + rewrite Hptr. simpl. by rewrite Hu', Hu.
  - split.
    + intros heap bodyBytes. eexists. split; [reflexivity|]. split; reflexivity.
    + intros heap bodyBytes path. eexists. split; [reflexivity|]. reflexivity.
Qed.

Lemma NewCDRRequest_opaque_url_witness :
  ∃ st, returned (NewCDRRequest example_client (example_heap "t") "PUT"
                    "Patient/123" [x61; x62]%byte
                    [None; Some (withHeader "Prefer" "return=minimal")]) = Ok st
        ∧ (Opaque <$> URL_of st) = Some "/store/fhir/org1/Patient/123".
Proof.
  eexists. split; [reflexivity|].
  rewrite (proj1 NewCDRRequest_opaque_url example_client (example_heap "t")
             "PUT" "Patient/123" [x61; x62]%byte
             [None; Some (withHeader "Prefer" "return=minimal")] example_base).
  - reflexivity.
  - reflexivity.
  - constructor; [apply nil_keeps_URL|].
    constructor; [apply withHeader_keeps_URL|]. constructor.
  - reflexivity.
Defined.

(** ** Failing options *)

(** C4.  When the options before some option function all succeed (or are
    nil) and that function returns an error, [NewCDRRequest] returns no
    request and that very error, and it has called no option at a later
    position of the list: the outcome is the same whatever follows the
    failing option. *)
Theorem NewCDRRequest_option_error
    (c : Client) (heap : Heap) (method path : string) (bodyBytes : list byte)
    (base : URL) (pre post : list (option OptionFunc)) (fn : OptionFunc)
    (calls : list nat) (st st' : ReqState) (e : error) :
  fhirStoreURL c = Some base →
  applyOptions 0 pre (initial base (RootOrgID (config c)) method path)
  = (calls, Ok st) →
  fn st = (st', Some e) →
  NewCDRRequest c heap method path bodyBytes (pre ++ Some fn :: post)
  = mkBuilt (calls ++ [length pre]) (Err e)
  ∧ Forall (λ k, (k ≤ length pre)%nat) (calls ++ [length pre]).
Proof.
  intros Hbase Hpre Hfn. split.
  - unfold NewCDRRequest. rewrite Hbase.
    rewrite (applyOptions_app _ _ _ _ _ _ Hpre). simpl. by rewrite Hfn.
  - apply Forall_app. split; [|by repeat constructor].
    apply Forall_forall. intros k Hk.
    pose proof (applyOptions_called_not_nil pre 0
                  (initial base (RootOrgID (config c)) method path) k) as Hin.
    rewrite Hpre in Hin. destruct (Hin Hk) as [_ [fn' Hfn']].
    apply lookup_lt_Some in Hfn'. lia.
Qed.

Lemma NewCDRRequest_option_error_witness :
  NewCDRRequest example_client (example_heap "t") "GET" "Patient/123" []
    ([None; Some (withHeader "Prefer" "return=minimal")]
     ++ Some (failing (ExternalError "denied")) :: [Some withoutHeaders; None])
  = mkBuilt [1; 2]%nat (Err (ExternalError "denied")).
Proof.
  refine (proj1 (NewCDRRequest_option_error example_client (example_heap "t")
                   "GET" "Patient/123" [] example_base _ _ _ [1%nat] _ _ _
                   _ _ _)).
  - reflexivity.
  - reflexivity.
  - reflexivity.
Defined.

(** ** Nil options *)



(** ** The bearer token *)

(** C5.  Every built request carries, as its one Authorization value,
    the word Bearer followed by the token the identity client holds when
    that call is made.  For two calls on one client the second request
    carries the token of the second moment, whatever the token was before. *)
Theorem NewCDRRequest_authorization_is_current_token
    (c : Client) (heap1 heap2 : Heap)
    (method1 path1 method2 path2 : string) (body1 body2 : list byte)
    (options1 options2 : list (option OptionFunc)) (st1 st2 : ReqState) :
  returned (NewCDRRequest c heap1 method1 path1 body1 options1) = Ok st1 →
  returned (NewCDRRequest c heap2 method2 path2 body2 options2) = Ok st2 →
  header_values "Authorization" st1
  = Some ["Bearer " +:+ Token (heap1 (iamClient c))]
  ∧ header_values "Authorization" st2
    = Some ["Bearer " +:+ Token (heap2 (iamClient c))].
Proof.
  intros Hret1 Hret2.
  apply NewCDRRequest_Ok in Hret1 as (? & ? & ? & _ & _ & Hset1).
  apply NewCDRRequest_Ok in Hret2 as (? & ? & ? & _ & _ & Hset2).
  split.
  - by destruct (setHeaders_fixed _ _ _ _ Hset1) as (_ & ? & _).
  - by destruct (setHeaders_fixed _ _ _ _ Hset2) as (_ & ? & _).
Qed.

Lemma NewCDRRequest_authorization_is_current_token_witness :
  ∃ st1 st2,
    returned (NewCDRRequest example_client (example_heap "old") "GET"
                "Patient/123" [] []) = Ok st1
    ∧ returned (NewCDRRequest example_client (example_heap "new") "GET"
                  "Patient/123" []
                  [Some (withHeader "Authorization" "Bearer old")]) = Ok st2
    ∧ header_values "Authorization" st1 = Some ["Bearer old"]
    ∧ header_values "Authorization" st2 = Some ["Bearer new"].
Proof.
  eexists. eexists. split; [reflexivity|]. split; [reflexivity|].
  apply (NewCDRRequest_authorization_is_current_token example_client
           (example_heap "old") (example_heap "new")
           "GET" "Patient/123" "GET" "Patient/123" [] [] []
           [Some (withHeader "Authorization" "Bearer old")]);
    reflexivity.
Defined.

(** ** Body, content length and query *)


Lemma is_mutating_false (method : string) :
  method ∉ ["POST"; "PUT"; "PATCH"] → is_mutating method = false.
Proof.
  intros Hnot. unfold is_mutating.
  destruct (String.eqb_spec method "POST") as [->|_]; [set_solver|].
  destruct (String.eqb_spec method "PUT") as [->|_]; [set_solver|].
  destruct (String.eqb_spec method "PATCH") as [->|_]; [set_solver|].
  reflexivity.
Qed.




(** C7.  For a method other than POST, PUT and PATCH (so for GET and
    DELETE) [bodyBytes] plays no part: the call does what it does for empty
    [bodyBytes], and it puts no body and no content length on the request,
    which has neither unless an option function gave it one. *)
Theorem NewCDRRequest_ignores_bodyBytes
    (c : Client) (heap : Heap) (method path : string) (bodyBytes : list byte)
    (options : list (option OptionFunc)) :
  method ∉ ["POST"; "PUT"; "PATCH"] →
  NewCDRRequest c heap method path bodyBytes options
  = NewCDRRequest c heap method path [] options
  ∧ (∀ st, Forall keeps_Body options →
           returned (NewCDRRequest c heap method path bodyBytes options) = Ok st →
           Body (req st) = None ∧ ContentLength (req st) = 0).
Proof.
  intros Hmethod. apply is_mutating_false in Hmethod. split.
  - unfold NewCDRRequest, attachBody. by rewrite Hmethod.
  - intros st Hkeep Hret.
    apply NewCDRRequest_Ok in Hret as (base & calls & st0 & _ & Hrun & Hset).
    destruct (setHeaders_frame _ _ _ _ Hset) as (_ & _ & Hbody & Hlen).
    destruct (applyOptions_keeps_Body _ _ _ _ _ Hkeep Hrun) as [Hbody0 Hlen0].
    unfold attachBody in *. rewrite Hmethod in *. simpl in Hbody0, Hlen0.
    split; congruence.
Qed.

Lemma NewCDRRequest_ignores_bodyBytes_witness :
  NewCDRRequest example_client (example_heap "t") "GET" "Patient/123"
    [x7b; x7d]%byte [Some (withHeader "Prefer" "return=minimal")]
  = NewCDRRequest example_client (example_heap "t") "GET" "Patient/123"
      [] [Some (withHeader "Prefer" "return=minimal")]
  ∧ ∃ st,
      returned (NewCDRRequest example_client (example_heap "t") "DELETE"
                  "Patient/123" [x7b; x7d]%byte
                  [Some (withHeader "Prefer" "return=minimal")]) = Ok st
      ∧ Body (req st) = None ∧ ContentLength (req st) = 0.
Proof.
  split.
  - apply (NewCDRRequest_ignores_bodyBytes example_client (example_heap "t")
             "GET" "Patient/123" [x7b; x7d]%byte).
    apply (bool_decide_unpack _). vm_compute. exact I.
  - eexists. split; [reflexivity|].
    apply (proj2 (NewCDRRequest_ignores_bodyBytes example_client
                    (example_heap "t") "DELETE" "Patient/123" [x7b; x7d]%byte
                    [Some (withHeader "Prefer" "return=minimal")]
                    ltac:(apply (bool_decide_unpack _); vm_compute; exact I))).
    + constructor; [apply withHeader_keeps_Body|constructor].
    + reflexivity.
Defined.

(** ** The four headers *)




(** A client as [newClient] makes it has the library's user agent. *)
Lemma newClient_UserAgent
    (url_Parse : string → option URL * option error)
    (os_OpenFile : string → option File * option error)
    (newMarshaller : option Marshaller * option error)
    (newUnmarshaller : string → option Unmarshaller * option error)
    (iam : iam_ref) (cfg : Config) (c : Client) :
  newClient url_Parse os_OpenFile newMarshaller newUnmarshaller iam cfg = Ok c →
  UserAgent c = userAgent.
Proof.
  unfold newClient, SetFHIRStoreURL. intros Hnew.
  repeat case_match; simplify_eq; reflexivity.
Qed.

(** ** Executing a request whose status is not a success *)

Section Execution_properties.

Variables Writer Target : Type.
Variable DumpRequest : ReqState → string.
Variable DumpResponse : HttpResponse → string.
Variable io_Copy : Writer → list byte → Writer * list byte * option error.
Variable json_Decode : Target → list byte → Target * list byte * option error.


(** On a transport failure [Do] returns the error and no response. *)
Lemma Do_transport_failure
    (c : Client) (heap : Heap) (r : ReqState) (v : Dest Writer Target)
    (resp : option HttpResponse) (e : error) :
  HttpClient_Do (heap (iamClient c)) r = Failed resp e →
  let d := Do Writer Target DumpRequest DumpResponse io_Copy json_Decode
              c heap r v in
  response d = None ∧ err d = Some e.
Proof.
  intros Hsent. unfold Do. by rewrite Hsent.
Qed.

End Execution_properties.


(** ** Constructing a client *)

Section Construction_properties.

Variable url_Parse : string → option URL * option error.
Variable os_OpenFile : string → option File * option error.
Variable jsonformat_NewMarshaller : option Marshaller * option error.
Variable jsonformat_NewUnmarshaller : string → option Unmarshaller * option error.

(** The store URL [newClient] hands to [SetFHIRStoreURL] is never empty, so
    the guard that returns [ErrCDRURLCannotBeEmpty] cannot fire there. *)
Lemma newClient_store_not_empty (cfg : Config) :
  (if bool_decide (FHIRStore cfg = "") then CDRURL cfg +:+ "/store/fhir/"
   else FHIRStore cfg) ≠ "".
Proof.
  case_bool_decide; [|done].
  by destruct (CDRURL cfg).
Qed.

(** A store URL that [url.Parse] rejects makes [newClient] fail with the
    parser's error, be it the [FHIRStore] given or the one made from
    [CDRURL]. *)
Lemma newClient_unparsable
    (iam : iam_ref) (cfg : Config) (parsed : option URL) (e : error) :
  let store := if bool_decide (FHIRStore cfg = "")
               then CDRURL cfg +:+ "/store/fhir/" else FHIRStore cfg in
  url_Parse (if negb (HasSuffix store "/") then store +:+ "/" else store)
  = (parsed, Some e) →
  NewClient url_Parse os_OpenFile jsonformat_NewMarshaller
            jsonformat_NewUnmarshaller iam cfg = Err e.
Proof.
  intros store Hparse. unfold NewClient, newClient, SetFHIRStoreURL.
  fold store.
  rewrite (bool_decide_eq_false_2 (store = ""))
    by apply newClient_store_not_empty.
  by rewrite Hparse.
Qed.

(** C9 (the code at the failing input).  With an empty [CDRURL] and no
    [FHIRStore] the store URL becomes the bare suffix /store/fhir/, which
    [url.Parse] accepts as a path; where the jsonformat constructors succeed
    [NewClient] then returns a client, whose base URL is that path with no
    scheme and no host, and no error. *)
Theorem NewClient_accepts_empty_CDRURL
    (iam : iam_ref) (region env org tz dbg : string) (base : URL)
    (m : option Marshaller) (um' : option Unmarshaller) :
  url_Parse "/store/fhir/" = (Some base, None) →
  jsonformat_NewMarshaller = (m, None) →
  jsonformat_NewUnmarshaller tz = (um', None) →
  ∃ c, NewClient url_Parse os_OpenFile jsonformat_NewMarshaller
                 jsonformat_NewUnmarshaller iam
                 (mkConfig region env org "" "" tz dbg) = Ok c
       ∧ fhirStoreURL c = Some base.
Proof.
  intros Hparse Hma Hum. unfold NewClient, newClient, SetFHIRStoreURL. simpl.
  change ("" +:+ "/store/fhir/") with "/store/fhir/".
  rewrite Hparse, Hma, Hum.
  destruct (negb (bool_decide (dbg = ""))); [|by eexists].
  destruct (os_OpenFile dbg) as [f [e|]]; by eexists.
Qed.

End Construction_properties.

Lemma NewClient_accepts_empty_CDRURL_witness :
  ∃ c, NewClient (λ s, (Some (mkURL "" "" None "" s "" false "" ""), None))
                 (λ _, (None, Some (ExternalError "no such directory")))
                 (Some (marshaller_handle 1), None)
                 (λ _, (Some (unmarshaller_handle 2), None)) 0%nat
                 (mkConfig "" "" "org1" "" "" "" "") = Ok c
       ∧ fhirStoreURL c
         = Some (mkURL "" "" None "" "/store/fhir/" "" false "" "").
Proof.
  apply (NewClient_accepts_empty_CDRURL
           (λ s, (Some (mkURL "" "" None "" s "" false "" ""), None))
           (λ _, (None, Some (ExternalError "no such directory")))
           (Some (marshaller_handle 1), None)
           (λ _, (Some (unmarshaller_handle 2), None)) 0%nat
           "" "" "org1" "" "" _ (Some (marshaller_handle 1))
           (Some (unmarshaller_handle 2)));
    reflexivity.
Defined.

(** * Further properties of client.go *)

(** ** The trailing slash *)

Lemma substring_end_append (s : string) (c : ascii) :
  substring (String.length s) 1 (s +:+ String c EmptyString)
  = String c EmptyString.
Proof. induction s as [|a s IH]; [reflexivity|exact IH]. Qed.

Lemma length_append_char (s : string) (c : ascii) :
  String.length (s +:+ String c EmptyString) = S (String.length s).
Proof. induction s as [|a s IH]; [reflexivity|]. simpl. by rewrite IH. Qed.

Lemma HasSuffix_append_slash (s : string) : HasSuffix (s +:+ "/") "/" = true.
Proof.
  unfold HasSuffix. rewrite length_append_char. simpl String.length.
  replace (S (String.length s) - 1)%nat with (String.length s) by lia.
  by rewrite substring_end_append.
Qed.

Section More_construction_properties.

Variable url_Parse : string → option URL * option error.
Variable os_OpenFile : string → option File * option error.
Variable jsonformat_NewMarshaller : option Marshaller * option error.
Variable jsonformat_NewUnmarshaller : string → option Unmarshaller * option error.

(** What [SetFHIRStoreURL] does with a non-empty argument. *)
Lemma SetFHIRStoreURL_normalised (c : Client) (urlStr : string) :
  urlStr ≠ "" →
  SetFHIRStoreURL url_Parse c urlStr
  = (set_fhirStoreURL
       (url_Parse (if HasSuffix urlStr "/" then urlStr else urlStr +:+ "/")).1
       c,
     (url_Parse (if HasSuffix urlStr "/" then urlStr else urlStr +:+ "/")).2).
Proof.
  intros Hne. unfold SetFHIRStoreURL. rewrite bool_decide_eq_false_2 by done.
  destruct (HasSuffix urlStr "/"); simpl; by destruct (url_Parse _).
Qed.

(** X1.  For a non-empty argument [SetFHIRStoreURL] parses a string that
    ends in a slash: the argument itself when it ends in one, the argument
    with a slash added otherwise; the base URL becomes what the parser
    returns for it and the error is the parser's. *)
Theorem SetFHIRStoreURL_parses_with_trailing_slash
    (c : Client) (urlStr : string) :
  urlStr ≠ "" →
  ∃ s, HasSuffix s "/" = true
       ∧ s = (if HasSuffix urlStr "/" then urlStr else urlStr +:+ "/")
       ∧ SetFHIRStoreURL url_Parse c urlStr
         = (set_fhirStoreURL (url_Parse s).1 c, (url_Parse s).2).
Proof.
  intros Hne.
  exists (if HasSuffix urlStr "/" then urlStr else urlStr +:+ "/").
  split; [|split].
  - destruct (HasSuffix urlStr "/") eqn:Hsuf; [exact Hsuf|].
    apply HasSuffix_append_slash.
  - reflexivity.
  - by apply SetFHIRStoreURL_normalised.
Qed.

(** X2.  An empty argument is refused with [ErrCDRURLCannotBeEmpty] and
    leaves the client as it was.  An argument the parser rejects (returning
    no URL, as [url.Parse] does with an error) takes the client's base URL
    away: [GetFHIRStoreURL] is then empty and [NewCDRRequest] panics before
    it calls any option. *)
Theorem SetFHIRStoreURL_failures
    (URL_String : URL → string) (c c' : Client) (urlStr : string) (e : error) :
  SetFHIRStoreURL url_Parse c "" = (c, Some ErrCDRURLCannotBeEmpty)
  ∧ ((∀ s, (url_Parse s).2 ≠ None → (url_Parse s).1 = None) →
     urlStr ≠ "" →
     SetFHIRStoreURL url_Parse c urlStr = (c', Some e) →
     fhirStoreURL c' = None
     ∧ GetFHIRStoreURL URL_String c' = ""
     ∧ ∀ heap method path bodyBytes options,
         NewCDRRequest c' heap method path bodyBytes options
         = mkBuilt [] Panic).
Proof.
  split; [reflexivity|].
  intros Hnil Hne Hset.
  rewrite (SetFHIRStoreURL_normalised c urlStr Hne) in Hset.
  set (s := if HasSuffix urlStr "/" then urlStr else urlStr +:+ "/") in *.
  injection Hset as <- Herr.
  assert (fhirStoreURL (set_fhirStoreURL (url_Parse s).1 c) = None) as Hbase.
  { simpl. apply Hnil. by rewrite Herr. }
  split; [exact Hbase|]. split.
  - unfold GetFHIRStoreURL. by rewrite Hbase.
  - intros heap method path bodyBytes options.
    unfold NewCDRRequest. by rewrite Hbase.
Qed.

(** X3.  What [NewClient] returns does not depend on how [os.OpenFile]
    fares, the [debugFile] field apart: with two different file systems the
    call fails with the same error or returns clients that differ in that
    field only; and when opening the debug log fails, the client it returns
    has no debug file. *)
Theorem NewClient_debug_log_is_best_effort
    (os_OpenFile' : string → option File * option error)
    (iam : iam_ref) (cfg : Config) :
  match NewClient url_Parse os_OpenFile jsonformat_NewMarshaller
                  jsonformat_NewUnmarshaller iam cfg,
        NewClient url_Parse os_OpenFile' jsonformat_NewMarshaller
                  jsonformat_NewUnmarshaller iam cfg with
  | Ok c1, Ok c2 =>
      set_debugFile None c1 = set_debugFile None c2
      ∧ ((os_OpenFile (DebugLog cfg)).2 ≠ None → debugFile c1 = None)
  | Err e1, Err e2 => e1 = e2
  | _, _ => False
  end.
Proof.
  unfold NewClient, newClient, SetFHIRStoreURL.
  case_bool_decide; [done|].
  destruct (url_Parse _) as [parsed [e|]]; [done|].
  destruct jsonformat_NewMarshaller as [m [e|]]; [done|].
  destruct (jsonformat_NewUnmarshaller _) as [um' [e|]]; [done|].
  destruct (negb (bool_decide (DebugLog cfg = ""))).
  - destruct (os_OpenFile (DebugLog cfg)) as [f [e|]],
             (os_OpenFile' (DebugLog cfg)) as [f' [e'|]]; simpl; by split.
  - simpl. split; [done|]. by intros _.
Qed.

(** X4.  An error of [NewClient] is an error [url.Parse] returned, or the
    one the marshaller constructor returned, or the one the unmarshaller
    constructor returned for the configured time zone; a failure to open
    the debug log is never returned. *)
Theorem NewClient_error_provenance (iam : iam_ref) (cfg : Config) (e : error) :
  NewClient url_Parse os_OpenFile jsonformat_NewMarshaller
            jsonformat_NewUnmarshaller iam cfg = Err e →
  (∃ s, (url_Parse s).2 = Some e)
  ∨ jsonformat_NewMarshaller.2 = Some e
  ∨ (jsonformat_NewUnmarshaller (TimeZone cfg)).2 = Some e.
Proof.
  unfold NewClient, newClient. intros Hnew.
  rewrite (SetFHIRStoreURL_normalised
             (mkClient iam cfg None userAgent None None None) _
             (newClient_store_not_empty cfg)) in Hnew.
  set (s := if HasSuffix _ "/" then _ else _) in *.
  destruct (url_Parse s) as [parsed [e1|]] eqn:Hparse; simpl in Hnew.
  { left. exists s. rewrite Hparse. simpl. congruence. }
  destruct jsonformat_NewMarshaller as [m [e2|]]; simpl.
  { right. left. congruence. }
  destruct (jsonformat_NewUnmarshaller (TimeZone cfg)) as [um' [e3|]]; simpl.
  { right. right. congruence. }
  done.
Qed.

(** X5.  Every request built with a client as [NewClient] returned it has
    all four headers, whatever the options did: Accept, Authorization with
    the current token, API-Version, and User-Agent with the library's own
    user agent. *)
Theorem NewClient_requests_carry_four_headers
    (iam : iam_ref) (cfg : Config) (c : Client) (heap : Heap)
    (method path : string) (bodyBytes : list byte)
    (options : list (option OptionFunc)) (st : ReqState) :
  NewClient url_Parse os_OpenFile jsonformat_NewMarshaller
            jsonformat_NewUnmarshaller iam cfg = Ok c →
  returned (NewCDRRequest c heap method path bodyBytes options) = Ok st →
  header_values "Accept" st = Some ["*/*"]
  ∧ header_values "Authorization" st = Some ["Bearer " +:+ Token (heap iam)]
  ∧ header_values "API-Version" st = Some ["1"]
  ∧ header_values "User-Agent" st = Some ["go-hsdp-api/cdr/0.27.0"].
Proof.
  intros Hnew Hret.
  pose proof (newClient_UserAgent _ _ _ _ _ _ _ Hnew) as Hua.
  assert (iamClient c = iam) as Hiam.
  { revert Hnew. unfold NewClient, newClient, SetFHIRStoreURL. intros Hnew.
    repeat case_match; simplify_eq; reflexivity. }
  apply NewCDRRequest_Ok in Hret as (base & calls & st0 & _ & _ & Hset).
  destruct (setHeaders_fixed _ _ _ _ Hset) as (Hacc & Hauth & Hver).
  rewrite Hiam in Hauth. repeat split; [done..|].
  rewrite (setHeaders_User_Agent _ _ _ _ Hset); by rewrite Hua.
Qed.

End More_construction_properties.

Lemma SetFHIRStoreURL_parses_with_trailing_slash_witness :
  ∃ s, HasSuffix s "/" = true
       ∧ s = "https://example.org/store/fhir/"
       ∧ SetFHIRStoreURL path_only_Parse example_client
           "https://example.org/store/fhir"
         = (set_fhirStoreURL (path_only_Parse s).1 example_client,
            (path_only_Parse s).2).
Proof.
  apply (SetFHIRStoreURL_parses_with_trailing_slash path_only_Parse
           example_client "https://example.org/store/fhir").
  vm_compute. discriminate.
Defined.

Lemma SetFHIRStoreURL_failures_witness :
  fhirStoreURL (set_fhirStoreURL None example_client) = None
  ∧ GetFHIRStoreURL Path (set_fhirStoreURL None example_client) = ""
  ∧ ∀ heap method path bodyBytes options,
      NewCDRRequest (set_fhirStoreURL None example_client) heap method path
        bodyBytes options
      = mkBuilt [] Panic.
Proof.
  apply (proj2 (SetFHIRStoreURL_failures rejecting_Parse Path example_client
                  (set_fhirStoreURL None example_client) "::"
                  (ExternalError "parse error"))).
  - intros s _. reflexivity.
  - vm_compute. discriminate.
  - reflexivity.
Defined.

Lemma NewClient_debug_log_is_best_effort_witness :
  match NewClient path_only_Parse
          (λ _, (None, Some (ExternalError "no such directory")))
          (Some (marshaller_handle 1), None)
          (λ _, (Some (unmarshaller_handle 2), None)) 0%nat
          (mkConfig "" "" "org1" "https://example.org" "" "" "/missing/log")
  with
  | Ok c => debugFile c = None
  | _ => False
  end.
Proof.
  pose proof (NewClient_debug_log_is_best_effort path_only_Parse
                (λ _, (None, Some (ExternalError "no such directory")))
                (Some (marshaller_handle 1), None)
                (λ _, (Some (unmarshaller_handle 2), None))
                (λ _, (Some (file_handle 3), None)) 0%nat
                (mkConfig "" "" "org1" "https://example.org" "" ""
                          "/missing/log")) as Hbest.
  vm_compute in Hbest. vm_compute.
  destruct Hbest as [_ Hnone]. apply Hnone. discriminate.
Defined.

Lemma NewClient_error_provenance_witness :
  (∃ s, (rejecting_Parse s).2 = Some (ExternalError "parse error"))
  ∨ (Some (marshaller_handle 1), @None error).2
    = Some (ExternalError "parse error")
  ∨ ((λ _ : string, (Some (unmarshaller_handle 2), @None error)) "").2
    = Some (ExternalError "parse error").
Proof.
  apply (NewClient_error_provenance rejecting_Parse
           (λ _, (None, None)) (Some (marshaller_handle 1), None)
           (λ _, (Some (unmarshaller_handle 2), None)) 0%nat
           (mkConfig "" "" "org1" "::" "" "" "")
           (ExternalError "parse error")).
  reflexivity.
Defined.

Lemma NewClient_requests_carry_four_headers_witness :
  ∃ c st,
    NewClient path_only_Parse (λ _, (None, None))
      (Some (marshaller_handle 1), None)
      (λ _, (Some (unmarshaller_handle 2), None)) 0%nat
      (mkConfig "" "" "org1" "https://example.org" "" "" "") = Ok c
    ∧ returned (NewCDRRequest c (example_heap "t") "GET" "Patient" []
                  [Some withoutHeaders]) = Ok st
    ∧ header_values "Accept" st = Some ["*/*"]
    ∧ header_values "Authorization" st = Some ["Bearer t"]
    ∧ header_values "API-Version" st = Some ["1"]
    ∧ header_values "User-Agent" st = Some ["go-hsdp-api/cdr/0.27.0"].
Proof.
  eexists. eexists. split; [reflexivity|]. split; [reflexivity|].
  eapply (NewClient_requests_carry_four_headers path_only_Parse
            (λ _, (None, None)) (Some (marshaller_handle 1), None)
            (λ _, (Some (unmarshaller_handle 2), None)) 0%nat
            (mkConfig "" "" "org1" "https://example.org" "" "" "") _
            (example_heap "t") "GET" "Patient" [] [Some withoutHeaders]);
    reflexivity.
Defined.

(** ** More on building a request *)







(** X8.  An error [NewCDRRequest] returns is the error of one of the
    options: the list splits at that option, the options before it ran to
    their end, and it returned this error. *)
Theorem NewCDRRequest_error_is_an_option_error
    (c : Client) (heap : Heap) (method path : string) (bodyBytes : list byte)
    (options : list (option OptionFunc)) (e : error) :
  returned (NewCDRRequest c heap method path bodyBytes options) = Err e →
  ∃ base pre fn post calls st1 st2,
    fhirStoreURL c = Some base
    ∧ options = pre ++ Some fn :: post
    ∧ applyOptions 0 pre (initial base (RootOrgID (config c)) method path)
      = (calls, Ok st1)
    ∧ fn st1 = (st2, Some e).
Proof.
  unfold NewCDRRequest. destruct (fhirStoreURL c) as [base|]; [|done].
  destruct (applyOptions 0 options _) as [calls [st0|e'|]] eqn:Hrun; simpl.
  - unfold setHeaders. by destruct (Header _).
  - intros [= ->].
    destruct (applyOptions_Err_inv _ _ _ _ _ Hrun)
      as (pre & fn & post & calls' & st1 & st2 & Hopts & Hpre & Hfn).
    by exists base, pre, fn, post, calls', st1, st2.
  - done.
Qed.

Lemma NewCDRRequest_error_is_an_option_error_witness :
  ∃ base pre fn post calls st1 st2,
    fhirStoreURL example_client = Some base
    ∧ [None; Some (failing (ExternalError "denied")); Some withoutHeaders]
      = pre ++ Some fn :: post
    ∧ applyOptions 0 pre
        (initial base (RootOrgID (config example_client)) "GET" "Patient")
      = (calls, Ok st1)
    ∧ fn st1 = (st2, Some (ExternalError "denied")).
Proof.
  apply (NewCDRRequest_error_is_an_option_error example_client
           (example_heap "t") "GET" "Patient" []
           [None; Some (failing (ExternalError "denied"));
            Some withoutHeaders]).
  reflexivity.
Defined.

(** On success the loop has called every non-nil entry, in the order of
    the slice. *)
Lemma applyOptions_calls_all (options : list (option OptionFunc)) :
  ∀ i st calls st',
    applyOptions i options st = (calls, Ok st') →
    StronglySorted lt calls
    ∧ Forall (λ k, (i ≤ k)%nat) calls
    ∧ ∀ j fn, options !! j = Some (Some fn) → (i + j)%nat ∈ calls.
Proof.
  induction options as [|[fn|] rest IH]; intros i st calls st' Hrun;
    simpl in *.
  - injection Hrun as <- _. repeat split; [constructor..|]. by intros j fn.
  - destruct (fn st) as [st1 [e|]]; [done|].
    destruct (applyOptions (S i) rest st1) as [calls1 r1] eqn:Hrest.
    injection Hrun as <- ->.
    destruct (IH _ _ _ _ Hrest) as (Hsorted & Hge & Hall).
    split; [|split].
    + constructor; [done|]. eapply Forall_impl; [exact Hge|]. simpl. lia.
    + constructor; [lia|]. eapply Forall_impl; [exact Hge|]. simpl. lia.
    + intros [|j] fn' Hj; simpl in Hj.
      * rewrite Nat.add_0_r. by left.
      * right. rewrite Nat.add_succ_r. by apply (Hall j fn').
  - destruct (IH _ _ _ _ Hrun) as (Hsorted & Hge & Hall).
    split; [done|]. split.
    + eapply Forall_impl; [exact Hge|]. simpl. lia.
    + intros [|j] fn' Hj; simpl in Hj; [done|].
      rewrite Nat.add_succ_r. by apply (Hall j fn').
Qed.

(** X9.  When [NewCDRRequest] returns a request it has called every
    non-nil option exactly once and in the order of the list: the positions
    it called are strictly increasing and are exactly the positions that
    hold a function. *)
Theorem NewCDRRequest_calls_every_option_in_order
    (c : Client) (heap : Heap) (method path : string) (bodyBytes : list byte)
    (options : list (option OptionFunc)) (st : ReqState) :
  returned (NewCDRRequest c heap method path bodyBytes options) = Ok st →
  StronglySorted lt (called (NewCDRRequest c heap method path bodyBytes options))
  ∧ ∀ k, k ∈ called (NewCDRRequest c heap method path bodyBytes options)
         ↔ ∃ fn, options !! k = Some (Some fn).
Proof.
  intros Hret.
  pose proof (NewCDRRequest_Ok _ _ _ _ _ _ _ Hret)
    as (base & calls & st0 & Hbase & Hrun & Hset).
  assert (called (NewCDRRequest c heap method path bodyBytes options) = calls)
    as ->.
  { unfold NewCDRRequest. by rewrite Hbase, Hrun. }
  destruct (applyOptions_calls_all _ _ _ _ _ Hrun) as (Hsorted & _ & Hall).
  split; [done|]. intros k. split.
  - intros Hk.
    pose proof (applyOptions_called_not_nil options 0
                  (initial base (RootOrgID (config c)) method path) k) as Hin.
    rewrite Hrun in Hin. destruct (Hin Hk) as [_ [fn Hfn]].
    exists fn. by rewrite Nat.sub_0_r in Hfn.
  - intros [fn Hfn]. by apply (Hall k fn).
Qed.

Lemma NewCDRRequest_calls_every_option_in_order_witness :
  StronglySorted lt
    (called (NewCDRRequest example_client (example_heap "t") "GET" "Patient"
               [] [Some withoutHeaders; None; Some (withQuery "a=b")]))
  ∧ ∀ k, k ∈ called (NewCDRRequest example_client (example_heap "t") "GET"
                       "Patient" []
                       [Some withoutHeaders; None; Some (withQuery "a=b")])
         ↔ ∃ fn, [Some withoutHeaders; None; Some (withQuery "a=b")] !! k
                 = Some (Some fn).
Proof.
  eapply (NewCDRRequest_calls_every_option_in_order example_client
            (example_heap "t") "GET" "Patient" []
            [Some withoutHeaders; None; Some (withQuery "a=b")]).
  reflexivity.
Defined.

(** X10.  A header the options set under a name other than the four of
    the builder reaches the caller as the options left it. *)
Theorem NewCDRRequest_keeps_other_headers
    (c : Client) (heap : Heap) (method path : string) (bodyBytes : list byte)
    (options : list (option OptionFunc)) (base : URL) (calls : list nat)
    (st0 st : ReqState) (key : string) :
  fhirStoreURL c = Some base →
  applyOptions 0 options (initial base (RootOrgID (config c)) method path)
  = (calls, Ok st0) →
  returned (NewCDRRequest c heap method path bodyBytes options) = Ok st →
  CanonicalMIMEHeaderKey key
    ∉ ["Accept"; "Authorization"; "Api-Version"; "User-Agent"] →
  header_values key st = header_values key st0.
Proof.
  intros Hbase Hrun Hret Hkey. unfold NewCDRRequest in Hret.
  rewrite Hbase, Hrun in Hret. simpl in Hret.
  assert (Header (req (attachBody method bodyBytes st0)) = Header (req st0))
    as Hhdr by (unfold attachBody; by destruct (is_mutating method)).
  unfold setHeaders in Hret. rewrite Hhdr in Hret.
  unfold header_values. destruct (Header (req st0)) as [h|]; [|done].
  injection Hret as <-. canonical_keys.
  apply not_elem_of_cons in Hkey as [? Hkey].
  apply not_elem_of_cons in Hkey as [? Hkey].
  apply not_elem_of_cons in Hkey as [? Hkey].
  apply not_elem_of_cons in Hkey as [? _].
  case_bool_decide; simpl; canonical_keys; by simplify_map_eq.
Qed.

Lemma NewCDRRequest_keeps_other_headers_witness :
  ∃ st, returned (NewCDRRequest example_client (example_heap "t") "PUT"
                    "Patient" [x7b; x7d]%byte
                    [Some (withHeader "content-type" "application/fhir+json")])
        = Ok st
        ∧ header_values "Content-Type" st = Some ["application/fhir+json"].
Proof.
  eexists. split; [reflexivity|].
  erewrite (NewCDRRequest_keeps_other_headers example_client
              (example_heap "t") "PUT" "Patient" [x7b; x7d]%byte
              [Some (withHeader "content-type" "application/fhir+json")]
              example_base [0%nat]
              (withHeader "content-type" "application/fhir+json"
                 (initial example_base "org1" "PUT" "Patient")).1
              _ "Content-Type").
  - reflexivity.
  - reflexivity.
  - reflexivity.
  - reflexivity.
  - apply (bool_decide_unpack _). vm_compute. exact I.
Defined.

(** X11.  For a method other than POST, PUT and PATCH the builder adds
    headers and nothing else after the options: the URL the request refers
    to (a query string an option set, say), the body and every other field
    are as the options left them. *)
Theorem NewCDRRequest_read_keeps_what_options_did
    (c : Client) (heap : Heap) (method path : string) (bodyBytes : list byte)
    (options : list (option OptionFunc)) (base : URL) (calls : list nat)
    (st0 st : ReqState) :
  method ∉ ["POST"; "PUT"; "PATCH"] →
  fhirStoreURL c = Some base →
  applyOptions 0 options (initial base (RootOrgID (config c)) method path)
  = (calls, Ok st0) →
  returned (NewCDRRequest c heap method path bodyBytes options) = Ok st →
  u st = u st0
  ∧ req st = set_Header (Header (req st)) (req st0)
  ∧ URL_of st = URL_of st0.
Proof.
  intros Hmethod Hbase Hrun Hret. unfold NewCDRRequest in Hret.
  rewrite Hbase, Hrun in Hret. simpl in Hret.
  unfold attachBody in Hret. rewrite (is_mutating_false _ Hmethod) in Hret.
  unfold setHeaders in Hret. destruct (Header (req st0)); [|done].
  by injection Hret as <-.
Qed.

Lemma NewCDRRequest_read_keeps_what_options_did_witness :
  ∃ st, returned (NewCDRRequest example_client (example_heap "t") "GET"
                    "Patient" [] [Some (withQuery "name=doe")]) = Ok st
        ∧ URL_of st
          = Some (set_RawQuery "name=doe"
                    (set_Opaque "/store/fhir/org1/Patient" example_base))
        ∧ target st
          = Some "https://example.org/store/fhir/org1/Patient?name=doe".
Proof.
  eexists. split; [reflexivity|].
  destruct (NewCDRRequest_read_keeps_what_options_did example_client
              (example_heap "t") "GET" "Patient" []
              [Some (withQuery "name=doe")] example_base [0%nat]
              (withQuery "name=doe"
                 (initial example_base "org1" "GET" "Patient")).1 _
              ltac:(apply (bool_decide_unpack _); vm_compute; exact I)
              eq_refl eq_refl eq_refl) as (_ & _ & Hurl).
  split; [exact Hurl|reflexivity].
Defined.

(** ** More on executing a request *)

Section More_execution_properties.

Variables Writer Target : Type.
Variable DumpRequest : ReqState → string.
Variable DumpResponse : HttpResponse → string.
Variable io_Copy : Writer → list byte → Writer * list byte * option error.
Variable json_Decode : Target → list byte → Target * list byte * option error.

Local Notation "'run'" :=
  (Do Writer Target DumpRequest DumpResponse io_Copy json_Decode)
  (only parsing).




(** X14.  [Do] never returns neither a response nor an error; and when it
    returns no error it returns a response whose status code is one of 200,
    201, 202, 204 and 304. *)
Theorem Do_returns_response_or_error
    (c : Client) (heap : Heap) (r : ReqState) (v : Dest Writer Target) :
  (response (run c heap r v) = None → is_Some (err (run c heap r v)))
  ∧ (err (run c heap r v) = None →
     ∃ rsp, response (run c heap r v) = Some rsp
            ∧ StatusCode (Response_ rsp) ∈ [200; 201; 202; 204; 304]).
Proof.
  unfold Do.
  destruct (HttpClient_Do (heap (iamClient c)) r) as [resp|resp e]; simpl.
  2: { split; [by eexists|done]. }
  unfold CheckResponse. case_bool_decide as Hcode; simpl.
  2: { split; [by eexists|done]. }
  destruct v as [|w|t].
  - split; [done|]. intros _. by eexists.
  - destruct (io_Copy w _) as [[w' rest] e]. simpl.
    split; [done|]. intros _. by eexists.
  - destruct (json_Decode t _) as [[t' rest] e]. simpl.
    split; [done|]. intros _. by eexists.
Qed.


(** X16.  On a success status and with a destination, [Do] closes the
    body whether copying or decoding failed or not, and returns the
    response together with the error of [io.Copy] (for a writer) or of the
    decoder (for any other value); a writer is never decoded into and the
    other values are never copied to. *)
Theorem Do_success_with_destination
    (c : Client) (heap : Heap) (r : ReqState) (resp : HttpResponse)
    (v : Dest Writer Target) :
  HttpClient_Do (heap (iamClient c)) r = Sent resp →
  StatusCode resp ∈ [200; 201; 202; 204; 304] →
  v ≠ DestNil →
  ∃ rsp, response (run c heap r v) = Some rsp
         ∧ StatusCode (Response_ rsp) = StatusCode resp
         ∧ closed (RespBody (Response_ rsp)) = true
         ∧ match v with
           | DestWriter w =>
               let '(w', rest, e) := io_Copy w (unread (RespBody resp)) in
               dest (run c heap r v) = DestWriter w'
               ∧ err (run c heap r v) = e
               ∧ unread (RespBody (Response_ rsp)) = rest
           | DestValue t =>
               let '(t', rest, e) := json_Decode t (unread (RespBody resp)) in
               dest (run c heap r v) = DestValue t'
               ∧ err (run c heap r v) = e
               ∧ unread (RespBody (Response_ rsp)) = rest
           | DestNil => False
           end.
Proof.
  intros Hsent Hcode Hdest. unfold Do.
  rewrite Hsent, (CheckResponse_success _ Hcode). simpl.
  destruct v as [|w|t]; [done| |].
  - destruct (io_Copy w _) as [[w' rest] e]. simpl. by eexists.
  - destruct (json_Decode t _) as [[t' rest] e]. simpl. by eexists.
Qed.

(** X17.  When the transport fails, [Do] returns its error and no
    response, even where the transport returned a response next to the
    error, and does not touch the destination; with a debug file the
    request has been dumped, and so has that response. *)
Theorem Do_transport_error
    (c : Client) (heap : Heap) (r : ReqState) (v : Dest Writer Target)
    (resp : option HttpResponse) (e : error) :
  HttpClient_Do (heap (iamClient c)) r = Failed resp e →
  response (run c heap r v) = None
  ∧ err (run c heap r v) = Some e
  ∧ dest (run c heap r v) = v
  ∧ length (written (run c heap r v))
    = match debugFile c, resp with
      | None, _ => 0%nat
      | Some _, None => 1%nat
      | Some _, Some _ => 2%nat
      end.
Proof.
  intros Hsent. unfold Do. rewrite Hsent. simpl.
  repeat split. by destruct (debugFile c), resp.
Qed.

End More_execution_properties.

Lemma Do_returns_response_or_error_witness :
  is_Some
    (err (Do (list byte) unit (λ _, "request") (λ _, "response")
            (λ w b, (w ++ b, [], None)) (λ t b, (t, [], None))
            example_client
            (λ _, mk_iam_Client "t"
                    (λ _, Failed None (ExternalError "connection refused")))
            (initial example_base "org1" "GET" "Patient") DestNil))
  ∧ ∃ rsp,
      response (Do (list byte) unit (λ _, "request") (λ _, "response")
                  (λ w b, (w ++ b, [], None)) (λ t b, (t, [], None))
                  example_client
                  (λ _, example_iam "t" (example_response 204 ""))
                  (initial example_base "org1" "DELETE" "Patient/1") DestNil)
      = Some rsp
      ∧ StatusCode (Response_ rsp) ∈ [200; 201; 202; 204; 304].
Proof.
  split.
  - apply (proj1 (Do_returns_response_or_error (list byte) unit
                    (λ _, "request") (λ _, "response")
                    (λ w b, (w ++ b, [], None)) (λ t b, (t, [], None))
                    example_client
                    (λ _, mk_iam_Client "t"
                            (λ _, Failed None
                                    (ExternalError "connection refused")))
                    (initial example_base "org1" "GET" "Patient") DestNil)).
    reflexivity.
  - apply (proj2 (Do_returns_response_or_error (list byte) unit
                    (λ _, "request") (λ _, "response")
                    (λ w b, (w ++ b, [], None)) (λ t b, (t, [], None))
                    example_client
                    (λ _, example_iam "t" (example_response 204 ""))
                    (initial example_base "org1" "DELETE" "Patient/1")
                    DestNil)).
    reflexivity.
Defined.


Lemma Do_success_with_destination_witness :
  ∃ rsp,
    response (Do (list byte) unit (λ _, "request") (λ _, "response")
                (λ w b, (w ++ b, [], None))
                (λ t b, (t, b, Some (ExternalError "invalid character")))
                example_client
                (λ _, example_iam "t" (example_response 200 "oops"))
                (initial example_base "org1" "GET" "Patient/1")
                (DestValue tt))
    = Some rsp
    ∧ StatusCode (Response_ rsp) = 200
    ∧ closed (RespBody (Response_ rsp)) = true
    ∧ dest (Do (list byte) unit (λ _, "request") (λ _, "response")
              (λ w b, (w ++ b, [], None))
              (λ t b, (t, b, Some (ExternalError "invalid character")))
              example_client
              (λ _, example_iam "t" (example_response 200 "oops"))
              (initial example_base "org1" "GET" "Patient/1")
              (DestValue tt)) = DestValue tt
    ∧ err (Do (list byte) unit (λ _, "request") (λ _, "response")
             (λ w b, (w ++ b, [], None))
             (λ t b, (t, b, Some (ExternalError "invalid character")))
             example_client
             (λ _, example_iam "t" (example_response 200 "oops"))
             (initial example_base "org1" "GET" "Patient/1")
             (DestValue tt)) = Some (ExternalError "invalid character")
    ∧ unread (RespBody (Response_ rsp)) = list_byte_of_string "oops".
Proof.
  apply (Do_success_with_destination (list byte) unit
           (λ _, "request") (λ _, "response")
           (λ w b, (w ++ b, [], None))
           (λ t b, (t, b, Some (ExternalError "invalid character")))
           example_client
           (λ _, example_iam "t" (example_response 200 "oops"))
           (initial example_base "org1" "GET" "Patient/1")
           (example_response 200 "oops") (DestValue tt)).
  - reflexivity.
  - apply (bool_decide_unpack _). vm_compute. exact I.
  - discriminate.
Defined.

Lemma Do_transport_error_witness :
  response (Do (list byte) unit (λ _, "request") (λ _, "response")
              (λ w b, (w ++ b, [], None)) (λ t b, (t, [], None))
              (set_debugFile (Some (file_handle 3)) example_client)
              (λ _, mk_iam_Client "t"
                      (λ _, Failed (Some (example_response 302 ""))
                              (ExternalError "stopped after 10 redirects")))
              (initial example_base "org1" "GET" "Patient")
              (DestWriter []))
  = None
  ∧ err (Do (list byte) unit (λ _, "request") (λ _, "response")
           (λ w b, (w ++ b, [], None)) (λ t b, (t, [], None))
           (set_debugFile (Some (file_handle 3)) example_client)
           (λ _, mk_iam_Client "t"
                   (λ _, Failed (Some (example_response 302 ""))
                           (ExternalError "stopped after 10 redirects")))
           (initial example_base "org1" "GET" "Patient")
           (DestWriter []))
    = Some (ExternalError "stopped after 10 redirects")
  ∧ dest (Do (list byte) unit (λ _, "request") (λ _, "response")
            (λ w b, (w ++ b, [], None)) (λ t b, (t, [], None))
            (set_debugFile (Some (file_handle 3)) example_client)
            (λ _, mk_iam_Client "t"
                    (λ _, Failed (Some (example_response 302 ""))
                            (ExternalError "stopped after 10 redirects")))
            (initial example_base "org1" "GET" "Patient")
            (DestWriter []))
    = DestWriter []
  ∧ length (written
              (Do (list byte) unit (λ _, "request") (λ _, "response")
                 (λ w b, (w ++ b, [], None)) (λ t b, (t, [], None))
                 (set_debugFile (Some (file_handle 3)) example_client)
                 (λ _, mk_iam_Client "t"
                         (λ _, Failed (Some (example_response 302 ""))
                                 (ExternalError "stopped after 10 redirects")))
                 (initial example_base "org1" "GET" "Patient")
                 (DestWriter [])))
    = 2%nat.
Proof.
  apply (Do_transport_error (list byte) unit
           (λ _, "request") (λ _, "response")
           (λ w b, (w ++ b, [], None)) (λ t b, (t, [], None))
           (set_debugFile (Some (file_handle 3)) example_client)
           (λ _, mk_iam_Client "t"
                   (λ _, Failed (Some (example_response 302 ""))
                           (ExternalError "stopped after 10 redirects")))
           (initial example_base "org1" "GET" "Patient") (DestWriter [])
           (Some (example_response 302 ""))
           (ExternalError "stopped after 10 redirects")).
  reflexivity.
Defined.

(** * Properties of the application resources (src/unnamed/part_000) *)

Lemma int32_in_range (z : Z) : - 2 ^ 31 ≤ z < 2 ^ 31 → int32 z = z.
Proof. intros Hz. unfold int32. rewrite Z.mod_small; lia. Qed.

Lemma int32_range (z : Z) : - 2 ^ 31 ≤ int32 z < 2 ^ 31.
Proof.
  unfold int32. pose proof (Z.mod_pos_bound (z + 2 ^ 31) (2 ^ 32)). lia.
Qed.

Lemma int32_congruent (z z' : Z) :
  int32 z = int32 z' ↔ (z - z') mod 2 ^ 32 = 0.
Proof.
  unfold int32. split.
  - intros Heq.
    assert ((z + 2 ^ 31) mod 2 ^ 32 = (z' + 2 ^ 31) mod 2 ^ 32) as Hmod by lia.
    replace (z - z') with ((z + 2 ^ 31) - (z' + 2 ^ 31)) by lia.
    rewrite Zminus_mod, Hmod, Z.sub_diag. reflexivity.
  - intros Hmod. f_equal.
    replace (z + 2 ^ 31) with ((z' + 2 ^ 31) + (z - z')) by lia.
    rewrite Zplus_mod, Hmod, Z.add_0_r. apply Z.mod_mod. lia.
Qed.

Lemma fold_append_nodes (edges : list Edge) (acc : list AppResource) :
  fold_left (λ appResources a, appResources ++ [Node a]) edges acc
  = acc ++ (Node <$> edges).
Proof.
  revert acc. induction edges as [|e edges IH]; intros acc; simpl.
  - by rewrite app_nil_r.
  - rewrite IH. by rewrite <- app_assoc.
Qed.

Section AppsService_properties.

Variable Query_applicationResource
  : gmap string GqlValue → AppResource * option error.
Variable Query_applicationResources
  : gmap string GqlValue → list Edge * option error.
Variable Query_createApplicationResource
  : gmap string GqlValue → CreatePayload * option error.
Variable Query_deleteApplicationResource
  : gmap string GqlValue → DeletePayload * option error.

(** X18.  [GetAppResourceByDeviceIDAndName] sends the device id as a 32-bit
    integer: an id from -2^31 up to 2^31-1 is sent as it is, while two ids
    that differ by a multiple of 2^32 are sent as the same number, and so
    get the same answer from any server. *)
Theorem GetAppResourceByDeviceIDAndName_sends_32_bit_id
    (deviceID deviceID' : Z) (name : string) :
  (- 2 ^ 31 ≤ deviceID < 2 ^ 31 →
   GetAppResourceByDeviceIDAndName Query_applicationResource deviceID name
   = match Query_applicationResource
             (<["id" := gql_Int deviceID]> (<["name" := gql_String name]> ∅))
     with
     | (_, Some e) => (None, Some e)
     | (app, None) => (Some app, None)
     end)
  ∧ ((deviceID - deviceID') mod 2 ^ 32 = 0 →
     GetAppResourceByDeviceIDAndName Query_applicationResource deviceID name
     = GetAppResourceByDeviceIDAndName Query_applicationResource deviceID'
         name).
Proof.
  unfold GetAppResourceByDeviceIDAndName. split.
  - intros Hrange. by rewrite (int32_in_range _ Hrange).
  - intros Hmod. apply int32_congruent in Hmod. by rewrite Hmod.
Qed.

(** X19.  When the query succeeds [GetAppResourcesBySerial] returns the
    nodes of the edges, one for each edge and in their order, in a slice
    that is not nil even when there is no edge; when the query fails it
    returns the error and no slice. *)
Theorem GetAppResourcesBySerial_returns_nodes
    (serial : string) (edges : list Edge) (failure : option error) :
  Query_applicationResources (<["serial" := gql_String serial]> ∅)
  = (edges, failure) →
  GetAppResourcesBySerial Query_applicationResources serial
  = match failure with
    | None => (Some (Node <$> edges), None)
    | Some e => (None, Some e)
    end
  ∧ (failure = None →
     ∃ l, (GetAppResourcesBySerial Query_applicationResources serial).1
          = Some l
          ∧ length l = length edges
          ∧ ∀ i e, edges !! i = Some e → l !! i = Some (Node e)).
Proof.
  intros Hquery. unfold GetAppResourcesBySerial. rewrite Hquery.
  destruct failure as [e|]; [by split|].
  rewrite fold_append_nodes. simpl. split; [done|].
  intros _. exists (Node <$> edges). split; [done|]. split.
  - by rewrite length_fmap.
  - intros i e Hi. by rewrite list_lookup_fmap, Hi.
Qed.

(** X20.  [CreateAppResource] and [DeleteAppResource] judge by the error of
    the query alone: whatever the answer says in its success flag, message
    and status code, creating returns the resource of the answer, and
    deleting returns true, as soon as the query returns no error. *)
Theorem mutations_ignore_reported_status
    (created : CreateApplicationResourceInput)
    (deleted : DeleteApplicationResourceInput)
    (creation : CreatePayload) (deletion : DeletePayload) :
  (Query_createApplicationResource (<["input" := gql_CreateInput created]> ∅)
   = (creation, None) →
   CreateAppResource Query_createApplicationResource created
   = (Some (ApplicationResource creation), None))
  ∧ (Query_deleteApplicationResource (<["input" := gql_DeleteInput deleted]> ∅)
     = (deletion, None) →
     DeleteAppResource Query_deleteApplicationResource deleted
     = (true, None)).
Proof.
  unfold CreateAppResource, DeleteAppResource. split; by intros ->.
Qed.

End AppsService_properties.

Lemma GetAppResourceByDeviceIDAndName_sends_32_bit_id_witness :
  GetAppResourceByDeviceIDAndName
    (λ vars, match vars !! "id" with
             | Some (gql_Int 7) => (mkAppResource 1 7 "config" "x", None)
             | _ => (mkAppResource 0 0 "" "", Some (ExternalError "not found"))
             end)
    (2 ^ 32 + 7) "config"
  = (Some (mkAppResource 1 7 "config" "x"), None).
Proof.
  rewrite (proj2 (GetAppResourceByDeviceIDAndName_sends_32_bit_id
                    (λ vars, match vars !! "id" with
                             | Some (gql_Int 7) =>
                                 (mkAppResource 1 7 "config" "x", None)
                             | _ => (mkAppResource 0 0 "" "",
                                     Some (ExternalError "not found"))
                             end)
                    (2 ^ 32 + 7) 7 "config") eq_refl).
  vm_compute. reflexivity.
Defined.

Lemma GetAppResourcesBySerial_returns_nodes_witness :
  GetAppResourcesBySerial
    (λ _, ([mkEdge (mkAppResource 1 7 "a" "x"); mkEdge (mkAppResource 2 7 "b" "y")],
           None)) "SN1"
  = (Some [mkAppResource 1 7 "a" "x"; mkAppResource 2 7 "b" "y"], None).
Proof.
  apply (proj1 (GetAppResourcesBySerial_returns_nodes
                  (λ _, ([mkEdge (mkAppResource 1 7 "a" "x");
                          mkEdge (mkAppResource 2 7 "b" "y")], None))
                  "SN1" _ None eq_refl)).
Defined.

Lemma mutations_ignore_reported_status_witness :
  DeleteAppResource
    (λ _, (mkDeletePayload "false" "no such resource" 404 "r1", None))
    (mkDeleteInput 1 "a" "SN1" 7 "g")
  = (true, None).
Proof.
  apply (proj2 (mutations_ignore_reported_status
                  (λ _, (mkCreatePayload "" "" 0 "" (mkAppResource 0 0 "" ""),
                         None))
                  (λ _, (mkDeletePayload "false" "no such resource" 404 "r1",
                         None))
                  (mkCreateInput 7 "SN1" "g" "a" "x" false)
                  (mkDeleteInput 1 "a" "SN1" 7 "g")
                  (mkCreatePayload "" "" 0 "" (mkAppResource 0 0 "" ""))
                  (mkDeletePayload "false" "no such resource" 404 "r1"))).
  reflexivity.
Defined.
